(** * praw/exceptions.py: error records and the API exception

    A shallow embedding of [src/praw/exceptions.py].  Python values are an
    inductive type, exceptions raised by the interpreter are an [outcome],
    and the effects the module has (object creation, the in-place flag
    [_called_from_reddit_api_exception], [warnings.warn], attribute
    assignment on [self]) are threaded through a small state monad. *)

From Stdlib Require Import ZArith String Ascii List.
From Stdlib Require Import DecimalString DecimalZ DecimalPos.
From stdpp Require Import base gmap sets list strings.

Local Open Scope string_scope.

(** ** Python values *)

(** The values that reach the module: [None], [int], [str], [list] and
    instances of [RedditErrorItem].  A [str] is a sequence of code points
    below 256.  The three data attributes of a [RedditErrorItem] are never
    reassigned by the module, so they are carried by the value together with
    the identity of the object; the one attribute the module does mutate,
    [_called_from_reddit_api_exception], lives in the store (see [state]),
    keyed by that identity, so that every alias of an object sees it. *)
#[local] Unset Elimination Schemes.
Inductive value : Type :=
| VNone
| VInt (z : Z)
| VStr (s : string)
| VList (l : list value)
| VItem (r : RedditErrorItem)
with RedditErrorItem : Type :=
| Build_RedditErrorItem (id : nat) (error_type message field : value).
#[local] Set Elimination Schemes.

Definition item_id (r : RedditErrorItem) : nat :=
  match r with Build_RedditErrorItem i _ _ _ => i end.
Definition error_type (r : RedditErrorItem) : value :=
  match r with Build_RedditErrorItem _ e _ _ => e end.
Definition message (r : RedditErrorItem) : value :=
  match r with Build_RedditErrorItem _ _ m _ => m end.
Definition field (r : RedditErrorItem) : value :=
  match r with Build_RedditErrorItem _ _ _ f => f end.

(** Structural induction through the nested lists and the records. *)
Fixpoint value_ind' (P : value -> Prop)
    (HNone : P VNone) (HInt : forall z, P (VInt z)) (HStr : forall s, P (VStr s))
    (HList : forall l, Forall P l -> P (VList l))
    (HItem : forall i e m f, P e -> P m -> P f ->
             P (VItem (Build_RedditErrorItem i e m f)))
    (v : value) {struct v} : P v :=
  let rec := value_ind' P HNone HInt HStr HList HItem in
  match v with
  | VNone => HNone
  | VInt z => HInt z
  | VStr s => HStr s
  | VList l =>
      HList l ((fix all (l : list value) : Forall P l :=
                  match l with
                  | [] => @List.Forall_nil _ P
                  | x :: l' => @List.Forall_cons _ P x l' (rec x) (all l')
                  end) l)
  | VItem (Build_RedditErrorItem i e m f) => HItem i e m f (rec e) (rec m) (rec f)
  end.

(** ** Outcomes, the store and the monad *)

Inductive exn : Type := AttributeError | IndexError | TypeError.

Inductive outcome (A : Type) : Type :=
| Ok (a : A)
| Raise (e : exn).
Arguments Ok {A} a.
Arguments Raise {A} e.

Inductive category : Type := DeprecationWarning | UserWarning.

(** One call of [warnings.warn]. *)
Record warning : Type := Build_warning
  { w_message : string; w_category : category; w_stacklevel : nat }.

(** Attributes of the exception instance the methods of [APIException] run
    on ([self]): [items] is unset until [__init__] assigns it. *)
Record instance : Type := Build_instance
  { items : option value; args : list value }.

Record state : Type := Build_state
  { next_id : nat;            (* identity of the next object created *)
    marked : gset nat;        (* objects whose flag
                                 [_called_from_reddit_api_exception] is True *)
    warnings : list warning;  (* calls of [warn], oldest first *)
    exc : instance }.

Definition M (A : Type) : Type := state -> outcome A * state.

#[export] Instance M_ret : MRet M := fun A a st => (Ok a, st).
#[export] Instance M_bind : MBind M := fun A B k c st =>
  match c st with
  | (Ok a, st') => k a st'
  | (Raise e, st') => (Raise e, st')
  end.

Definition raise {A : Type} (e : exn) : M A := fun st => (Raise e, st).
Definition lift {A : Type} (o : outcome A) : M A := fun st => (o, st).
Definition modify (f : state -> state) : M unit := fun st => (Ok tt, f st).

(** ** The builtins the module uses *)

Definition isinstance_str (v : value) : bool :=
  match v with VStr _ => true | _ => false end.
Definition isinstance_list (v : value) : bool :=
  match v with VList _ => true | _ => false end.
Definition isinstance_RedditErrorItem (v : value) : bool :=
  match v with VItem _ => true | _ => false end.

(** [bool(v)]: [RedditErrorItem] defines neither [__bool__] nor [__len__],
    so its instances are true. *)
Definition py_bool (v : value) : bool :=
  match v with
  | VNone => false
  | VInt z => negb (z =? 0)%Z
  | VStr s => negb (String.eqb s "")
  | VList l => match l with [] => false | _ => true end
  | VItem _ => true
  end.

(** The characters of a [str], each as a [str] of length one. *)
Fixpoint chars (s : string) : list value :=
  match s with
  | EmptyString => []
  | String c s' => VStr (String c EmptyString) :: chars s'
  end.

(** [v[i]] for an index [i >= 0]. *)
Definition py_getitem (v : value) (i : nat) : outcome value :=
  match v with
  | VList l => match l !! i with Some x => Ok x | None => Raise IndexError end
  | VStr s => match chars s !! i with Some x => Ok x | None => Raise IndexError end
  | _ => Raise TypeError
  end.

(** The elements a [for] loop or a comprehension takes from [v]. *)
Definition py_iter (v : value) : outcome (list value) :=
  match v with
  | VList l => Ok l
  | VStr s => Ok (chars s)
  | _ => Raise TypeError
  end.

(** [str(z)] for an [int]. *)
Definition str_int (z : Z) : string := NilZero.string_of_int (Z.to_int z).

(** [repr(s)] for a [str], as CPython's [unicode_repr] computes it: double
    quotes when the text has a single quote and no double quote, single
    quotes otherwise; backslash and the chosen quote escaped; tab, newline
    and carriage return by their letters; other unprintable code points
    in hexadecimal. *)
Definition hex_digit (n : N) : ascii :=
  match String.get (N.to_nat n) "0123456789abcdef" with
  | Some c => c
  | None => "0"%char
  end.

Fixpoint contains_char (c : ascii) (s : string) : bool :=
  match s with
  | EmptyString => false
  | String d s' => Ascii.eqb c d || contains_char c s'
  end.

Definition squote : ascii := ascii_of_nat 39.
Definition dquote : ascii := ascii_of_nat 34.
Definition backslash : ascii := ascii_of_nat 92.

Definition repr_quote (s : string) : ascii :=
  if contains_char squote s && negb (contains_char dquote s)
  then dquote else squote.

Definition printable (n : N) : bool :=
  ((32 <=? n) && (n <? 127) || (161 <=? n) && negb (n =? 173))%N.

Definition repr_char (quote c : ascii) : string :=
  let n := N_of_ascii c in
  if Ascii.eqb c quote || Ascii.eqb c backslash
  then String backslash (String c EmptyString)
  else if (n =? 9)%N then String backslash "t"
  else if (n =? 10)%N then String backslash "n"
  else if (n =? 13)%N then String backslash "r"
  else if printable n then String c EmptyString
  else String backslash (String "x"%char
         (String (hex_digit (n / 16)) (String (hex_digit (n mod 16)) EmptyString))).

Fixpoint repr_chars (quote : ascii) (s : string) : string :=
  match s with
  | EmptyString => EmptyString
  | String c s' => repr_char quote c +:+ repr_chars quote s'
  end.

Definition repr_str (s : string) : string :=
  let q := repr_quote s in
  String q (repr_chars q s) +:+ String q EmptyString.

(** [", ".join(parts)] *)
Fixpoint join (sep : string) (parts : list string) : string :=
  match parts with
  | [] => ""
  | [p] => p
  | p :: ps => p +:+ sep +:+ join sep ps
  end.

(** ** class RedditErrorItem *)

(** The methods of [RedditErrorItem] format their attributes with [str] and
    [repr], which come back to [__str__] and [__repr__] when an attribute is
    itself a record; the method bodies are therefore written over the two
    functions they call, and closed below by recursion on the value. *)
Section Methods.
Variable flags : gset nat.
Variables str repr : value -> string.
Variable eq : value -> value -> bool.

(** Lines 22-28: the property [error_message]. *)
Definition error_message_body (self : RedditErrorItem) : string :=
  let error_str := str (error_type self) +:+ ": " +:+ repr (message self) in
  if py_bool (field self)
  then error_str +:+ " on field " +:+ repr (field self)
  else error_str.

(** Lines 80-82. *)
Definition __str___body (self : RedditErrorItem) : string :=
  error_message_body self.

(** Lines 69-78; [self.__class__.__name__] is [RedditErrorItem], the class
    has no subclass. *)
Definition __repr___body (self : RedditErrorItem) : string :=
  if negb (bool_decide (item_id self ∈ flags))
  then "RedditErrorItem(error_type=" +:+ repr (error_type self)
       +:+ ", message=" +:+ repr (message self)
       +:+ ", field=" +:+ repr (field self) +:+ ")"
  else __str___body self.

(** Lines 59-67.  [None] stands for [NotImplemented], which is what
    [object.__eq__] answers for an [other] that is not [self]; the tuples
    are compared component by component. *)
Definition __eq___body (self : RedditErrorItem) (other : value) : option bool :=
  match other with
  | VItem other =>
      Some (eq (error_type self) (error_type other)
            && eq (message self) (message other)
            && eq (field self) (field other))
  | _ => None
  end.
End Methods.

(** [str(v)] and [repr(v)]. *)
Fixpoint py_str (flags : gset nat) (v : value) {struct v} : string :=
  match v with
  | VNone => "None"
  | VInt z => str_int z
  | VStr s => s
  | VList l => "[" +:+ join ", " (map (py_repr flags) l) +:+ "]"
  | VItem r => __str___body (py_str flags) (py_repr flags) r
  end
with py_repr (flags : gset nat) (v : value) {struct v} : string :=
  match v with
  | VNone => "None"
  | VInt z => str_int z
  | VStr s => repr_str s
  | VList l => "[" +:+ join ", " (map (py_repr flags) l) +:+ "]"
  | VItem r => __repr___body flags (py_str flags) (py_repr flags) r
  end.

(** [v == w].  The operator asks the left operand, then the right one, and
    falls back on identity when both answer [NotImplemented]; operands of
    different classes are never the same object. *)
Fixpoint py_eq (v w : value) {struct v} : bool :=
  match v, w with
  | VNone, VNone => true
  | VInt a, VInt b => (a =? b)%Z
  | VStr a, VStr b => String.eqb a b
  | VList a, VList b =>
      (fix all2 (a b : list value) {struct a} : bool :=
         match a, b with
         | [], [] => true
         | x :: a', y :: b' => py_eq x y && all2 a' b'
         | _, _ => false
         end) a b
  | VItem r, _ =>
      match __eq___body py_eq r w with
      | Some b => b
      | None => false
      end
  | _, _ => false
  end.

Definition error_message (st : state) (self : RedditErrorItem) : string :=
  error_message_body (py_str (marked st)) (py_repr (marked st)) self.

Definition __str__ (st : state) (self : RedditErrorItem) : string :=
  __str___body (py_str (marked st)) (py_repr (marked st)) self.

Definition __repr__ (st : state) (self : RedditErrorItem) : string :=
  __repr___body (marked st) (py_str (marked st)) (py_repr (marked st)) self.

Definition __eq__ (self : RedditErrorItem) (other : value) : option bool :=
  __eq___body py_eq self other.

(** Lines 30-57: a new object, its flag False. *)
Definition RedditErrorItem__init__ (error_type message field : value) : M value :=
  fun st =>
    let self := Build_RedditErrorItem (next_id st) error_type message field in
    (Ok (VItem self),
     {| next_id := S (next_id st);
        marked := marked st ∖ {[next_id st]};
        warnings := warnings st;
        exc := exc st |}).

(** ** class APIException *)

Module APIException.

(** Lines 116-120: the loop over [enumerate(items.copy())], assigning into
    [items] by index.  The list returned is the argument itself, updated
    in place. *)
Fixpoint pad_sub_lists (copy : list value) (sub_list_number : nat)
    (items : list value) : list value :=
  match copy with
  | [] => items
  | sub_list :: rest =>
      pad_sub_lists rest (S sub_list_number)
        match sub_list with
        | VList s =>
            if (length s =? 2)%nat
            then <[sub_list_number := VList (s ++ [VNone])]> items
            else items
        | _ => items
        end
  end.

(** Lines 96-121. *)
Definition _form_exception_list (items : value) (optional_args : list value)
    : outcome value :=
  let items :=
    if isinstance_str items then VList [VList (items :: optional_args)] else items in
  let items :=
    if isinstance_RedditErrorItem items then VList [items] else items in
  match items with
  | VList l =>
      match py_getitem items 0 with
      | Raise e => Raise e
      | Ok first =>
          if isinstance_str first then
            Ok (if (length l =? 3)%nat then VList [items] else VList [VList (l ++ [VNone])])
          else if isinstance_list first then
            Ok (VList (pad_sub_lists l 0 l))
          else Ok items
      end
  | _ => Ok items
  end.

(** Lines 134-140: one element of the comprehension. *)
Definition to_item (exception : value) : M value :=
  if isinstance_RedditErrorItem exception then mret exception
  else
    e0 ← lift (py_getitem exception 0);
    e1 ← lift (py_getitem exception 1);
    e2 ← lift (py_getitem exception 2);
    RedditErrorItem__init__ e0 e1 (if py_bool e2 then e2 else VStr "").

(** Line 144: [exception._called_from_reddit_api_exception = True]. *)
Definition set_called_from (exception : value) : M unit :=
  match exception with
  | VItem r =>
      modify (fun st =>
        {| next_id := next_id st;
           marked := {[item_id r]} ∪ marked st;
           warnings := warnings st;
           exc := exc st |})
  | _ => raise AttributeError
  end.

(** Lines 123-145. *)
Definition _parse_exception_list (exceptions : value) : M value :=
  elements ← lift (py_iter exceptions);
  baselist ← mapM to_item elements;
  mapM set_called_from baselist;;
  mret (VList baselist).

(** The attribute names the three properties pass to [_get_old_attr]. *)
Inductive attrname : Type := Aerror_type | Amessage | Afield.

Definition attrname_str (a : attrname) : string :=
  match a with
  | Aerror_type => "error_type"
  | Amessage => "message"
  | Afield => "field"
  end.

(** [getattr(v, attrname)]: only a [RedditErrorItem] has these attributes. *)
Definition getattr (v : value) (a : attrname) : outcome value :=
  match v with
  | VItem r =>
      Ok match a with
         | Aerror_type => error_type r
         | Amessage => message r
         | Afield => field r
         end
  | _ => Raise AttributeError
  end.

(** [warnings.warn(message, category=..., stacklevel=...)]: the call is
    recorded; it returns [None]. *)
Definition warn (msg : string) (cat : category) (stacklevel : nat) : M unit :=
  modify (fun st =>
    {| next_id := next_id st;
       marked := marked st;
       warnings := warnings st ++ [Build_warning msg cat stacklevel];
       exc := exc st |}).

(** [self.items], an [AttributeError] while it is unset. *)
Definition self_items : M value :=
  fun st =>
    match items (exc st) with
    | Some v => (Ok v, st)
    | None => (Raise AttributeError, st)
    end.

(** Lines 195-200: the text of the warning, the name formatted in. *)
Definition deprecation_message (name : string) : string :=
  "Accessing attribute ``" +:+ name
  +:+ "`` through APIException is deprecated. "
  +:+ "This behavior will be removed in PRAW 8.0. Check out "
  +:+ "https://praw.readthedocs.io/en/latest/package_info/"
  +:+ "praw7_migration.html to learn how to migrate your code.".

(** Lines 193-204. *)
Definition _get_old_attr (a : attrname) : M value :=
  warn (deprecation_message (attrname_str a)) DeprecationWarning 3;;
  its ← self_items;
  first ← lift (py_getitem its 0);
  lift (getattr first a).

(** Lines 148-191: the three deprecated properties. *)
Definition error_type : M value := _get_old_attr Aerror_type.
Definition message : M value := _get_old_attr Amessage.
Definition field : M value := _get_old_attr Afield.

Section Init.
(** What the attribute lookup [self.parse_exception_list] finds on the
    class of [self]: a callable taking the list, or nothing. *)
Variable parse_exception_list : option (value -> M value).

Definition set_items (v : value) : M unit :=
  modify (fun st =>
    {| next_id := next_id st;
       marked := marked st;
       warnings := warnings st;
       exc := {| items := Some v; args := args (exc st) |} |}).

(** [BaseException.__init__(self, *xs)] stores its arguments. *)
Definition BaseException__init__ (xs : list value) : M unit :=
  modify (fun st =>
    {| next_id := next_id st;
       marked := marked st;
       warnings := warnings st;
       exc := {| items := items (exc st); args := xs |} |}).

(** Lines 206-223. *)
Definition __init__ (items : value) (optional_args : list value) : M unit :=
  items ←
    (if isinstance_str items then
       mret (VList [VList (items :: optional_args)])
     else if isinstance_list items then
       first ← lift (py_getitem items 0);
       mret (if isinstance_str first then VList [items] else items)
     else mret items);
  f ← match parse_exception_list with
      | Some f => mret f
      | None => raise AttributeError
      end;
  parsed ← f items;
  set_items parsed;;
  its ← self_items;
  xs ← lift (py_iter its);
  BaseException__init__ xs.
End Init.

(** The names bound by the class bodies along the method resolution order
    of [RedditAPIException]: its own body and that of [PRAWException] hold
    a docstring only.  [Exception], [BaseException] and [object] bind no
    name without a leading underscore but [args], [with_traceback] and
    [add_note]. *)
Definition RedditAPIException_body : list string := [].
Definition APIException_body : list string :=
  ["_form_exception_list"; "_parse_exception_list"; "error_type"; "message";
   "field"; "_get_old_attr"; "__init__"].
Definition PRAWException_body : list string := [].
Definition builtin_names : list string := ["args"; "with_traceback"; "add_note"].

Definition class_binds (name : string) : bool :=
  bool_decide (name ∈ (RedditAPIException_body ++ APIException_body
                       ++ PRAWException_body ++ builtin_names)%list).

(** [APIException(items, *optional_args)] and
    [RedditAPIException(items, *optional_args)]: no class binds
    [parse_exception_list] (see [parse_exception_list_unbound]), so the
    lookup finds nothing. *)
Definition new (items : value) (optional_args : list value) : M unit :=
  __init__ None items optional_args.
End APIException.

(** ** class TooLargeMediaException *)

Module TooLargeMediaException.
Record t : Type := Build_t
  { maximum_size : Z; actual : Z; args : list string }.

(** Lines 288-301; [ClientException.__init__] is [BaseException]'s and
    stores the formatted text as the only argument. *)
Definition __init__ (maximum_size actual : Z) : t :=
  {| maximum_size := maximum_size;
     actual := actual;
     args := ["The media that you uploaded was too large (maximum size is "
              +:+ str_int maximum_size +:+ " bytes, uploaded "
              +:+ str_int actual +:+ " bytes)"] |}.

(** [str(exception)] for an exception with one argument. *)
Definition str (e : t) : string :=
  match args e with
  | [a] => a
  | _ => ""
  end.
End TooLargeMediaException.

(** ** class InvalidFlairTemplateID *)

Module InvalidFlairTemplateID.
(** Lines 248-255: the text handed to [ClientException.__init__], which
    keeps it as the only argument. *)
Definition __init__ (template_id : string) : list string :=
  ["The flair template id ``" +:+ template_id
   +:+ "`` is invalid. If you are "
   +:+ "trying to create a flair, please use the ``add`` method."].
End InvalidFlairTemplateID.

(** ** States and records used in the statements *)

(** A fresh instance in an empty store. *)
Definition initial_state : state :=
  {| next_id := 0; marked := ∅; warnings := [];
     exc := {| items := None; args := [] |} |}.

(** A record built as the annotations of [RedditErrorItem.__init__] have it:
    [error_type] and [message] are [str], [field] is [Optional[str]]. *)
Definition of_optional (o : option string) : value :=
  match o with
  | Some s => VStr s
  | None => VNone
  end.

Definition record (i : nat) (kind msg : string) (fld : option string)
    : RedditErrorItem :=
  Build_RedditErrorItem i (VStr kind) (VStr msg) (of_optional fld).

(** [needle in hay] for two [str]. *)
Definition occurs_in (needle hay : string) : Prop :=
  exists pre post, hay = pre +:+ needle +:+ post.

(** The elements [_parse_exception_list] is documented for: a record, or a
    raw triple. *)
Definition is_raw (x : value) : bool :=
  match x with
  | VItem _ => true
  | VList [_; _; _] => true
  | _ => false
  end.

(** What the comprehension of [_parse_exception_list] makes of one element:
    a record is kept, anything else is indexed three times and a record is
    built from the three values. *)
Definition converts (x y : value) : Prop :=
  match x with
  | VItem _ => y = x
  | _ =>
      exists i e0 e1 e2,
        py_getitem x 0 = Ok e0 /\ py_getitem x 1 = Ok e1
        /\ py_getitem x 2 = Ok e2
        /\ y = VItem (Build_RedditErrorItem i e0 e1
                        (if py_bool e2 then e2 else VStr ""))
  end.

(** The same, read on the two documented shapes. *)
Definition normalizes (x y : value) : Prop :=
  match x with
  | VItem r => y = VItem r
  | VList [t; m; f] =>
      exists i fld,
        y = VItem (Build_RedditErrorItem i t m fld)
        /\ fld = (if py_bool f then f else VStr "")
        /\ fld <> VNone
  | _ => False
  end.

(** The state after [RedditErrorItem.__init__]. *)
Definition allocated (st : state) : state :=
  {| next_id := S (next_id st);
     marked := marked st ∖ {[next_id st]};
     warnings := warnings st;
     exc := exc st |}.

(** The effects of the normaliser stay within the store of records: the
    instance and the warnings are as before. *)
Definition same_instance (st st' : state) : Prop :=
  exc st' = exc st /\ warnings st' = warnings st.

(** The same state with other flags. *)
Definition with_marked (mk : gset nat) (st : state) : state :=
  {| next_id := next_id st; marked := mk;
     warnings := warnings st; exc := exc st |}.

(** The state after one more call of [warn]. *)
Definition warned (w : warning) (st : state) : state :=
  {| next_id := next_id st; marked := marked st;
     warnings := warnings st ++ [w]; exc := exc st |}.

(** The warning a deprecated accessor issues. *)
Definition deprecation (a : APIException.attrname) : warning :=
  {| w_message := APIException.deprecation_message (APIException.attrname_str a);
     w_category := DeprecationWarning;
     w_stacklevel := 3 |}.

(** What the loop of [_form_exception_list] does to one element: a list of
    two gets [None] appended, anything else is left as it is. *)
Definition padded (sub_list : value) : value :=
  match sub_list with
  | VList s => if (length s =? 2)%nat then VList (s ++ [VNone]) else sub_list
  | _ => sub_list
  end.


(** [_parse_exception_list(_form_exception_list(items, *optional_args))]:
    the two steps of the normaliser, one after the other. *)
Definition form_then_parse (items : value) (optional_args : list value) : M value :=
  v ← lift (APIException._form_exception_list items optional_args);
  APIException._parse_exception_list v.

(** The elements the comprehension of [_parse_exception_list] can convert:
    a record, and what has the indices 0, 1 and 2. *)
Definition convertible (x : value) : bool :=
  match x with
  | VItem _ => true
  | VList l => (3 <=? length l)%nat
  | VStr s => (3 <=? String.length s)%nat
  | _ => false
  end.

(** The exception the first element that cannot be converted raises:
    indexing a short list or string is an [IndexError], indexing [None] or
    an [int] a [TypeError]. *)
Fixpoint first_error (l : list value) : option exn :=
  match l with
  | [] => None
  | x :: l' =>
      if convertible x then first_error l'
      else Some match x with
                | VList _ | VStr _ => IndexError
                | _ => TypeError
                end
  end.

(** The elements of a list of errors as the server sends it: records,
    pairs and triples. *)
Definition is_entry (x : value) : bool :=
  match x with
  | VItem _ => true
  | VList [_; _] => true
  | VList [_; _; _] => true
  | _ => false
  end.

(** What the two steps make of such an element: the field of a pair is the
    empty string. *)
Definition normalized_entry (x y : value) : Prop :=
  match x with
  | VItem r => y = VItem r
  | VList [t; m] => exists i, y = VItem (Build_RedditErrorItem i t m (VStr ""))
  | VList [t; m; f] =>
      exists i, y = VItem (Build_RedditErrorItem i t m
                             (if py_bool f then f else VStr ""))
  | _ => False
  end.

(** A value with the identities of its records forgotten. *)
Fixpoint erase (v : value) : value :=
  match v with
  | VList l => VList (map erase l)
  | VItem (Build_RedditErrorItem _ e m f) =>
      VItem (Build_RedditErrorItem 0 (erase e) (erase m) (erase f))
  | _ => v
  end.

(** The record [_parse_exception_list] builds from a string it meets among
    the elements: its first three characters. *)
Definition spelled (s : string) (y : value) : Prop :=
  exists i c0 c1 c2 rest,
    s = String c0 (String c1 (String c2 rest))
    /\ y = VItem (Build_RedditErrorItem i (VStr (String c0 EmptyString))
                    (VStr (String c1 EmptyString))
                    (VStr (String c2 EmptyString))).

(** * Properties *)

(** ** Strings and the printer of integers *)

Lemma append_cons (x : ascii) (a b : string) :
  String x a +:+ b = String x (a +:+ b).
Proof. reflexivity. Qed.

Lemma append_assoc (a b c : string) : (a +:+ b) +:+ c = a +:+ (b +:+ c).
Proof.
  induction a as [|x a IH]; [reflexivity|].
  now rewrite !append_cons, IH.
Qed.

Lemma append_empty_r (a : string) : a +:+ "" = a.
Proof.
  induction a as [|x a IH]; [reflexivity|].
  now rewrite append_cons, IH.
Qed.

Lemma occurs_in_middle (pre needle post : string) :
  occurs_in needle (pre +:+ needle +:+ post).
Proof. now exists pre, post. Qed.

Lemma occurs_in_app_r (needle pre hay : string) :
  occurs_in needle hay -> occurs_in needle (pre +:+ hay).
Proof.
  intros (p & q & ->). exists (pre +:+ p), q. now rewrite append_assoc.
Qed.

(** [str_int] prints the decimal numeral that reads back as the integer. *)
Lemma str_int_reads_back (z : Z) :
  Z.of_int <$> NilZero.int_of_string (str_int z) = Some z.
Proof.
  unfold str_int.
  destruct (decide (z = 0%Z)) as [->|Hz]; [reflexivity|].
  rewrite NilZero.isi.
  - simpl. now rewrite DecimalZ.of_to.
  - destruct z; simpl; try discriminate; try congruence.
    intros [= H]. now apply DecimalPos.Unsigned.to_uint_nonnil in H.
  - destruct z; simpl; try discriminate; try congruence.
    intros [= H]. now apply DecimalPos.Unsigned.to_uint_nonnil in H.
Qed.

(** ** RedditErrorItem: the rendered message *)

Lemma error_message_unfold (st : state) (r : RedditErrorItem) :
  error_message st r =
    py_str (marked st) (error_type r) +:+ ": " +:+ py_repr (marked st) (message r)
    +:+ (if py_bool (field r)
         then " on field " +:+ py_repr (marked st) (field r) else "").
Proof.
  unfold error_message, error_message_body.
  destruct (py_bool (field r)).
  - now rewrite !append_assoc.
  - now rewrite append_empty_r.
Qed.

(** C7: for every error record the rendered message is the kind, a colon
    and the repr of the message, followed by [ on field ] and the repr of
    the field exactly when the field is a non-empty string; with field
    [None] or the empty string the clause is left out.  The record
    ("RATE_LIMIT", "too many requests", "body") renders as
    [RATE_LIMIT: 'too many requests' on field 'body']. *)
Theorem error_message_renders (st : state) (i : nat) (kind msg : string) :
  error_message st (record i kind msg None) = kind +:+ ": " +:+ repr_str msg
  /\ error_message st (record i kind msg (Some "")) = kind +:+ ": " +:+ repr_str msg
  /\ (forall c s,
        error_message st (record i kind msg (Some (String c s))) =
          kind +:+ ": " +:+ repr_str msg
          +:+ " on field " +:+ repr_str (String c s))
  /\ error_message st (record i "RATE_LIMIT" "too many requests" (Some "body"))
     = "RATE_LIMIT: 'too many requests' on field 'body'".
Proof.
  repeat split; intros; rewrite error_message_unfold; simpl;
    rewrite ?append_empty_r; reflexivity.
Qed.

(** ** RedditErrorItem: equality *)

Lemma py_eq_item (r r' : RedditErrorItem) :
  py_eq (VItem r) (VItem r') =
    py_eq (error_type r) (error_type r')
    && py_eq (message r) (message r')
    && py_eq (field r) (field r').
Proof. now destruct r, r'. Qed.

Lemma py_eq_refl (v : value) : py_eq v v = true.
Proof.
  induction v as [| z | s | l IH | i e m f IHe IHm IHf] using value_ind'; simpl.
  - reflexivity.
  - apply Z.eqb_refl.
  - apply String.eqb_refl.
  - induction IH as [| x l Hx _ IHl]; [reflexivity|].
    now rewrite Hx, IHl.
  - unfold error_type, message, field. now rewrite IHe, IHm, IHf.
Qed.

Lemma py_eq_optional (a b : option string) :
  py_eq (of_optional a) (of_optional b) = true <-> a = b.
Proof.
  destruct a as [a|], b as [b|]; simpl; try (split; [discriminate | congruence]).
  - rewrite String.eqb_eq. split; congruence.
  - split; reflexivity.
Qed.

(** C8: equality of error records is structural.  [__eq__] on two records
    answers the comparison of the three attributes, so two records are
    equal exactly when kind, message and field are pairwise equal (for
    records of strings: exactly when the three attributes are the same,
    whatever the identity of the two objects), and a record equals itself.
    Compared with a value that is not a record, [__eq__] answers
    [NotImplemented] and [==] is [False] on either side: the comparison is a
    total function, it raises nothing. *)
Theorem item_equality_structural :
  (forall r r',
      __eq__ r (VItem r') = Some (py_eq (VItem r) (VItem r'))
      /\ (py_eq (VItem r) (VItem r') = true <->
          py_eq (error_type r) (error_type r') = true
          /\ py_eq (message r) (message r') = true
          /\ py_eq (field r) (field r') = true))
  /\ (forall i j k m f k' m' f',
        py_eq (VItem (record i k m f)) (VItem (record j k' m' f')) = true
        <-> k = k' /\ m = m' /\ f = f')
  /\ (forall r, py_eq (VItem r) (VItem r) = true)
  /\ (forall r w,
        match w with
        | VItem _ => True
        | _ => __eq__ r w = None
               /\ py_eq (VItem r) w = false
               /\ py_eq w (VItem r) = false
        end).
Proof.
  split; [|split; [|split]].
  - intros r r'. split.
    + unfold __eq__, __eq___body. now rewrite py_eq_item.
    + rewrite py_eq_item, !andb_true_iff. tauto.
  - intros i j k m f k' m' f'.
    rewrite py_eq_item, !andb_true_iff. simpl error_type. simpl message.
    simpl field. rewrite py_eq_optional. simpl. rewrite !String.eqb_eq. tauto.
  - intros r. apply py_eq_refl.
  - intros r [| z | s | l | r']; try exact I; repeat split; now destruct r.
Qed.

(** ** TooLargeMediaException *)

(** C9: for every pair of integers the exception keeps [maximum_size] and
    [actual] as attributes and its message contains the decimal numeral of
    each; for 1000 and 2000 it contains [1000] and [2000]. *)
Theorem too_large_media_message (maximum_size actual : Z) :
  let e := TooLargeMediaException.__init__ maximum_size actual in
  TooLargeMediaException.maximum_size e = maximum_size
  /\ TooLargeMediaException.actual e = actual
  /\ occurs_in (str_int maximum_size) (TooLargeMediaException.str e)
  /\ occurs_in (str_int actual) (TooLargeMediaException.str e)
  /\ occurs_in "1000"
       (TooLargeMediaException.str (TooLargeMediaException.__init__ 1000 2000))
  /\ occurs_in "2000"
       (TooLargeMediaException.str (TooLargeMediaException.__init__ 1000 2000)).
Proof.
  assert (H : forall m a,
             occurs_in (str_int m)
               (TooLargeMediaException.str (TooLargeMediaException.__init__ m a))
             /\ occurs_in (str_int a)
               (TooLargeMediaException.str (TooLargeMediaException.__init__ m a))).
  { intros m a. simpl. split.
    - apply occurs_in_middle.
    - do 2 apply occurs_in_app_r. apply occurs_in_app_r.
      exists "", " bytes)". reflexivity. }
  simpl. repeat split; try apply H; apply (H 1000%Z 2000%Z).
Qed.

(** ** The monad: running a comprehension *)

Lemma bind_run {A B : Type} (c : M A) (k : A -> M B) (st : state) :
  (c ≫= k) st =
    match c st with
    | (Ok a, st') => k a st'
    | (Raise e, st') => (Raise e, st')
    end.
Proof. reflexivity. Qed.

Lemma mapM_nil_run {A B : Type} (f : A -> M B) (st : state) :
  mapM f [] st = (Ok [], st).
Proof. reflexivity. Qed.

Lemma mapM_cons_run {A B : Type} (f : A -> M B) (x : A) (l : list A) (st : state) :
  mapM f (x :: l) st =
    match f x st with
    | (Ok y, st1) =>
        match mapM f l st1 with
        | (Ok ys, st2) => (Ok (y :: ys), st2)
        | (Raise e, st2) => (Raise e, st2)
        end
    | (Raise e, st1) => (Raise e, st1)
    end.
Proof.
  change (mapM f (x :: l)) with (y ← f x; k ← mapM f l; mret (y :: k)).
  rewrite bind_run. destruct (f x st) as [[y|e] st1]; [|reflexivity].
  rewrite bind_run. now destruct (mapM f l st1) as [[ys|e] st2].
Qed.

(** A successful [mapM] relates the elements one by one, and the final state
    to the initial one through any relation the steps preserve. *)
Lemma mapM_Ok {A B : Type} (f : A -> M B) (R : A -> B -> Prop)
    (T : state -> state -> Prop) :
  (forall st, T st st) ->
  (forall s1 s2 s3, T s1 s2 -> T s2 s3 -> T s1 s3) ->
  (forall x y st st', f x st = (Ok y, st') -> R x y /\ T st st') ->
  forall l ys st st',
    mapM f l st = (Ok ys, st') -> Forall2 R l ys /\ T st st'.
Proof.
  intros Trefl Ttrans Hf l.
  induction l as [|x l IH]; intros ys st st'.
  - rewrite mapM_nil_run. intros [= <- <-]. split; [constructor | apply Trefl].
  - rewrite mapM_cons_run.
    destruct (f x st) as [[y|e] st1] eqn:Hx; [|discriminate].
    destruct (mapM f l st1) as [[zs|e] st2] eqn:Hl; [|discriminate].
    intros [= <- <-].
    destruct (Hf _ _ _ _ Hx) as [HR HT].
    destruct (IH _ _ _ Hl) as [HRs HTs].
    split; [now constructor | eauto].
Qed.

(** ** _parse_exception_list *)

Lemma same_instance_refl (st : state) : same_instance st st.
Proof. now split. Qed.

Lemma same_instance_trans (s1 s2 s3 : state) :
  same_instance s1 s2 -> same_instance s2 s3 -> same_instance s1 s3.
Proof. intros [H1 H2] [H3 H4]. split; congruence. Qed.

Lemma to_item_item (r : RedditErrorItem) (st : state) :
  APIException.to_item (VItem r) st = (Ok (VItem r), st).
Proof. reflexivity. Qed.

Lemma to_item_triple (t m f : value) (rest : list value) (st : state) :
  APIException.to_item (VList (t :: m :: f :: rest)) st =
    (Ok (VItem (Build_RedditErrorItem (next_id st) t m
                  (if py_bool f then f else VStr ""))),
     allocated st).
Proof. reflexivity. Qed.

Lemma to_item_Ok (x y : value) (st st' : state) :
  APIException.to_item x st = (Ok y, st') ->
  (converts x y /\ isinstance_RedditErrorItem y = true) /\ same_instance st st'.
Proof.
  unfold APIException.to_item.
  destruct (isinstance_RedditErrorItem x) eqn:Hx.
  - destruct x; try discriminate. intros [= <- <-].
    repeat split; reflexivity.
  - rewrite !bind_run. unfold lift.
    destruct (py_getitem x 0) as [e0|] eqn:H0; [|discriminate].
    rewrite !bind_run.
    destruct (py_getitem x 1) as [e1|] eqn:H1; [|discriminate].
    rewrite !bind_run.
    destruct (py_getitem x 2) as [e2|] eqn:H2; [|discriminate].
    intros [= <- <-].
    repeat split.
    destruct x; try discriminate;
      exists (next_id st), e0, e1, e2; now rewrite ?H0, ?H1, ?H2.
Qed.

(** Marking a list of records succeeds and marks each of them, keeping the
    marks already there. *)
Lemma mark_all (ys : list value) (st : state) :
  Forall (fun y => isinstance_RedditErrorItem y = true) ys ->
  exists us st',
    mapM APIException.set_called_from ys st = (Ok us, st')
    /\ same_instance st st'
    /\ next_id st' = next_id st
    /\ marked st ⊆ marked st'
    /\ (forall r, VItem r ∈ ys -> item_id r ∈ marked st').
Proof.
  intros Hys. revert st.
  induction Hys as [|y ys Hy _ IH]; intros st.
  - exists [], st. rewrite mapM_nil_run.
    repeat split; [set_solver | intros r Hr; now apply elem_of_nil in Hr].
  - destruct y as [| | | |r]; try discriminate.
    destruct (IH (with_marked ({[item_id r]} ∪ marked st) st))
      as (us & st' & Hrun & [He Hw] & Hn & Hsub & Hin).
    exists (tt :: us), st'. rewrite mapM_cons_run. simpl.
    unfold modify. fold (with_marked ({[item_id r]} ∪ marked st) st).
    rewrite Hrun. simpl in *.
    repeat split; try assumption; [set_solver|].
    intros r' Hr'. apply elem_of_cons in Hr' as [[= ->]|Hr'].
    + apply Hsub. set_solver.
    + now apply Hin.
Qed.

(** The postcondition of a successful run of the normaliser. *)
Lemma parse_Ok (exceptions v : value) (st st' : state) :
  APIException._parse_exception_list exceptions st = (Ok v, st') ->
  exists l ys,
    py_iter exceptions = Ok l /\ v = VList ys
    /\ Forall2 converts l ys
    /\ (forall r, VItem r ∈ ys -> item_id r ∈ marked st')
    /\ same_instance st st'.
Proof.
  unfold APIException._parse_exception_list. rewrite bind_run. unfold lift.
  destruct (py_iter exceptions) as [l|] eqn:Hl; [|discriminate].
  rewrite bind_run.
  destruct (mapM APIException.to_item l st) as [[ys|] st1] eqn:Hys; [|discriminate].
  apply (mapM_Ok _ (fun x y => converts x y /\ isinstance_RedditErrorItem y = true)
           same_instance same_instance_refl same_instance_trans to_item_Ok)
    in Hys as [HR HT].
  assert (Hitems : Forall (fun y => isinstance_RedditErrorItem y = true) ys).
  { clear -HR. induction HR as [|x y l ys [_ Hy] _ IH]; now constructor. }
  destruct (mark_all ys st1 Hitems) as (us & st2 & Hrun & HT' & _ & _ & Hin).
  rewrite bind_run, Hrun. intros [= <- <-].
  exists l, ys. repeat split; try assumption.
  - clear -HR. induction HR as [|x y l ys [Hc _] _ IH]; now constructor.
  - apply (same_instance_trans _ _ _ HT HT').
  - apply (same_instance_trans _ _ _ HT HT').
Qed.

Lemma converts_raw (x y : value) :
  is_raw x = true -> converts x y -> normalizes x y.
Proof.
  destruct x as [| | |l|r]; try discriminate; [|now intros _ ->].
  destruct l as [|t [|m [|f [|? ?]]]]; try discriminate.
  intros _ (i & e0 & e1 & e2 & [= <-] & [= <-] & [= <-] & ->).
  exists i, (if py_bool f then f else VStr ""). repeat split.
  now destruct f as [|z|s|[|? ?]|?]; simpl; try destruct (negb _).
Qed.

Lemma to_items_raw (l : list value) (st : state) :
  forallb is_raw l = true ->
  exists ys st', mapM APIException.to_item l st = (Ok ys, st').
Proof.
  revert st. induction l as [|x l IH]; intros st Hl.
  - now exists [], st.
  - simpl in Hl. apply andb_true_iff in Hl as [Hx Hl].
    rewrite mapM_cons_run.
    destruct x as [| | |s|r]; try discriminate.
    + destruct s as [|t [|m [|f [|? ?]]]]; try discriminate.
      rewrite to_item_triple.
      destruct (IH (allocated st) Hl) as (ys & st' & ->). eauto.
    + rewrite to_item_item. destruct (IH st Hl) as (ys & st' & ->). eauto.
Qed.

(** On a list of records and raw triples the normaliser returns. *)
Lemma parse_raw_runs (l : list value) (st : state) :
  forallb is_raw l = true ->
  exists v st', APIException._parse_exception_list (VList l) st = (Ok v, st').
Proof.
  intros Hl. destruct (to_items_raw l st Hl) as (ys & st1 & Hys).
  unfold APIException._parse_exception_list. rewrite bind_run. simpl.
  rewrite bind_run, Hys.
  pose proof Hys as Hys'.
  apply (mapM_Ok _ (fun x y => converts x y /\ isinstance_RedditErrorItem y = true)
           same_instance same_instance_refl same_instance_trans to_item_Ok)
    in Hys' as [HR _].
  assert (Hitems : Forall (fun y => isinstance_RedditErrorItem y = true) ys).
  { clear -HR. induction HR as [|x y l ys [_ Hy] _ IH]; now constructor. }
  destruct (mark_all ys st1 Hitems) as (us & st2 & Hrun & _).
  rewrite bind_run, Hrun. eauto.
Qed.

(** C5: on every list whose elements are records or raw triples,
    [_parse_exception_list] returns a list of the same length, in the same
    order, in which a record stands for itself and a triple [t, m, f] for a
    record with kind [t], message [m] and field [f] if [f] is true, the
    empty string otherwise; the field of a record built from a triple is
    never [None]. *)
Theorem parse_exception_list_normalizes (l : list value) (st : state) :
  forallb is_raw l = true ->
  exists ys st',
    APIException._parse_exception_list (VList l) st = (Ok (VList ys), st')
    /\ Forall2 normalizes l ys
    /\ length ys = length l.
Proof.
  intros Hl. destruct (parse_raw_runs l st Hl) as (v & st' & Hrun).
  destruct (parse_Ok _ _ _ _ Hrun) as (l0 & ys & [= <-] & -> & HR & _).
  exists ys, st'. split; [assumption|].
  split; [|symmetry; eapply Forall2_length; eassumption].
  clear Hrun. induction HR as [|x y l ys Hxy _ IH]; [constructor|].
  simpl in Hl. apply andb_true_iff in Hl as [Hx Hl].
  constructor; [now apply converts_raw | now apply IH].
Qed.

Lemma parse_exception_list_normalizes_witness :
  exists ys st',
    APIException._parse_exception_list
      (VList [VItem (record 5 "A" "B" (Some "C"));
              VList [VStr "a"; VStr "b"; VNone]]) initial_state
    = (Ok (VList ys), st')
    /\ Forall2 normalizes
         [VItem (record 5 "A" "B" (Some "C")); VList [VStr "a"; VStr "b"; VNone]]
         ys
    /\ length ys = 2.
Proof.
  apply (parse_exception_list_normalizes
           [VItem (record 5 "A" "B" (Some "C"));
            VList [VStr "a"; VStr "b"; VNone]] initial_state).
  reflexivity.
Defined.

(** A falsy field of a raw triple, [None] or the empty string, becomes the
    empty string. *)
Example parse_exception_list_falsy_fields :
  fst (APIException._parse_exception_list
         (VList [VList [VStr "a"; VStr "b"; VNone];
                 VList [VStr "c"; VStr "d"; VStr ""];
                 VList [VStr "e"; VStr "f"; VStr "g"]]) initial_state)
  = Ok (VList [VItem (record 0 "a" "b" (Some ""));
               VItem (record 1 "c" "d" (Some ""));
               VItem (record 2 "e" "f" (Some "g"))]).
Proof. reflexivity. Qed.

(** ** The flag set by the normaliser *)

Lemma converts_keeps_items (l ys : list value) (r : RedditErrorItem) :
  Forall2 converts l ys -> VItem r ∈ l -> VItem r ∈ ys.
Proof.
  induction 1 as [|x y l ys Hxy _ IH]; intros Hr.
  - now apply elem_of_nil in Hr.
  - apply elem_of_cons in Hr as [<-|Hr].
    + simpl in Hxy. subst y. apply elem_of_cons. now left.
    + apply elem_of_cons. right. now apply IH.
Qed.

Lemma converts_items (l ys : list value) (y : value) :
  Forall2 converts l ys -> y ∈ ys -> exists r, y = VItem r.
Proof.
  induction 1 as [|x y' l ys Hxy _ IH]; intros Hy.
  - now apply elem_of_nil in Hy.
  - apply elem_of_cons in Hy as [->|Hy]; [|now apply IH].
    destruct x; simpl in Hxy;
      try (destruct Hxy as (i & e0 & e1 & e2 & _ & _ & _ & ->)); subst; eauto.
Qed.

Lemma get_old_attr_run (a : APIException.attrname) (st : state) :
  APIException._get_old_attr a st =
    match items (exc st) with
    | None => (Raise AttributeError, warned (deprecation a) st)
    | Some its =>
        match py_getitem its 0 with
        | Raise e => (Raise e, warned (deprecation a) st)
        | Ok first => (APIException.getattr first a, warned (deprecation a) st)
        end
    end.
Proof.
  unfold APIException._get_old_attr. rewrite bind_run. simpl.
  rewrite bind_run. unfold APIException.self_items. simpl.
  destruct (items (exc st)) as [its|]; [|reflexivity].
  rewrite bind_run. unfold lift.
  now destruct (py_getitem its 0).
Qed.

(** C10: [_parse_exception_list] sets the flag on every record it returns.
    A record passed in is returned as the same object and marked in place,
    whatever its flag was.  The flag is read by [__repr__] only: an unmarked
    record prints in the constructor style, a marked one prints as
    [str(record)], which is its [error_message]; the message of a record of
    strings is the same under any flags, and so is what a deprecated
    accessor answers. *)
Theorem called_from_flag (exceptions v : value) (st st' : state) :
  APIException._parse_exception_list exceptions st = (Ok v, st') ->
  (exists l ys,
      py_iter exceptions = Ok l /\ v = VList ys
      /\ (forall y, y ∈ ys -> exists r, y = VItem r /\ item_id r ∈ marked st')
      /\ (forall r, VItem r ∈ l -> VItem r ∈ ys /\ item_id r ∈ marked st'))
  /\ (forall s r,
        __repr__ s r =
          if bool_decide (item_id r ∈ marked s) then __str__ s r
          else "RedditErrorItem(error_type=" +:+ py_repr (marked s) (error_type r)
               +:+ ", message=" +:+ py_repr (marked s) (message r)
               +:+ ", field=" +:+ py_repr (marked s) (field r) +:+ ")")
  /\ (forall s r, __str__ s r = error_message s r)
  /\ (forall mk s i k m f,
        error_message (with_marked mk s) (record i k m f)
        = error_message s (record i k m f))
  /\ (forall mk s a,
        fst (APIException._get_old_attr a (with_marked mk s))
        = fst (APIException._get_old_attr a s)).
Proof.
  intros Hrun.
  destruct (parse_Ok _ _ _ _ Hrun) as (l & ys & Hl & -> & HR & Hin & _).
  split; [|split; [|split; [|split]]].
  - exists l, ys. repeat split; try assumption.
    + intros y Hy. destruct (converts_items _ _ _ HR Hy) as [r ->]. eauto.
    + now apply (converts_keeps_items l).
    + now apply Hin, (converts_keeps_items l).
  - intros s r. unfold __repr__, __repr___body.
    now destruct (bool_decide (item_id r ∈ marked s)).
  - reflexivity.
  - intros mk s i k m f. rewrite !error_message_unfold.
    now destruct f as [f|].
  - intros mk s a. rewrite !get_old_attr_run. simpl.
    destruct (items (exc s)) as [its|]; [|reflexivity].
    now destruct (py_getitem its 0).
Qed.

Lemma called_from_flag_witness :
  let exceptions :=
    VList [VItem (record 5 "A" "B" (Some "C")); VList [VStr "a"; VStr "b"; VNone]] in
  let st' := snd (APIException._parse_exception_list exceptions initial_state) in
  exists l ys,
    py_iter exceptions = Ok l
    /\ VList [VItem (record 5 "A" "B" (Some "C"));
              VItem (record 0 "a" "b" (Some ""))] = VList ys
    /\ (forall y, y ∈ ys -> exists r, y = VItem r /\ item_id r ∈ marked st')
    /\ (forall r, VItem r ∈ l -> VItem r ∈ ys /\ item_id r ∈ marked st').
Proof.
  intros exceptions st'.
  apply (called_from_flag exceptions
           (VList [VItem (record 5 "A" "B" (Some "C"));
                   VItem (record 0 "a" "b" (Some ""))])
           initial_state st').
  reflexivity.
Defined.

(** The record built beforehand is unmarked before the call and marked
    after it; its repr changes accordingly. *)
Example called_from_flag_in_place :
  let r := record 5 "A" "B" (Some "C") in
  let st' := snd (APIException._parse_exception_list (VList [VItem r]) initial_state) in
  bool_decide (item_id r ∈ marked initial_state) = false
  /\ bool_decide (item_id r ∈ marked st') = true
  /\ __repr__ initial_state r
     = "RedditErrorItem(error_type='A', message='B', field='C')"
  /\ __repr__ st' r = "A: 'B' on field 'C'".
Proof. vm_compute. repeat split. Qed.

(** ** The deprecated accessors *)



(** ** _form_exception_list *)

Lemma pad_sub_lists_padded (copy pre : list value) :
  APIException.pad_sub_lists copy (length pre) (pre ++ copy)%list
  = (pre ++ map padded copy)%list.
Proof.
  revert pre. induction copy as [|x copy IH]; intros pre; [reflexivity|].
  simpl.
  assert (Hx : match x with
               | VList s =>
                   if (length s =? 2)%nat
                   then <[length pre := VList (s ++ [VNone])]> (pre ++ x :: copy)%list
                   else (pre ++ x :: copy)%list
               | _ => (pre ++ x :: copy)%list
               end = ((pre ++ [padded x]) ++ copy)%list).
  { rewrite <- app_assoc. simpl.
    destruct x as [| | |s|]; try reflexivity. simpl.
    destruct (length s =? 2)%nat; [|reflexivity].
    rewrite <- (Nat.add_0_r (length pre)). now rewrite insert_app_r. }
  rewrite Hx.
  replace (S (length pre)) with (length (pre ++ [padded x])%list)
    by (rewrite length_app; simpl; lia).
  rewrite IH, <- app_assoc. reflexivity.
Qed.

Lemma pad_sub_lists_all (l : list value) :
  APIException.pad_sub_lists l 0 l = map padded l.
Proof. exact (pad_sub_lists_padded l []). Qed.

(** A flat list of three strings is wrapped as it is, a flat list of two
    with [None] appended. *)
Lemma form_flat_three (a b c : string) :
  APIException._form_exception_list (VList [VStr a; VStr b; VStr c]) []
  = Ok (VList [VList [VStr a; VStr b; VStr c]]).
Proof. reflexivity. Qed.

Lemma form_flat_two (a b : string) :
  APIException._form_exception_list (VList [VStr a; VStr b]) []
  = Ok (VList [VList [VStr a; VStr b; VNone]]).
Proof. reflexivity. Qed.

(** A list that starts with a list has every element padded. *)
Lemma form_list_first (s : list value) (l : list value) :
  APIException._form_exception_list (VList (VList s :: l)) []
  = Ok (VList (map padded (VList s :: l))).
Proof.
  unfold APIException._form_exception_list. simpl py_getitem. cbv iota beta.
  simpl isinstance_str. simpl isinstance_list. cbv iota.
  simpl isinstance_RedditErrorItem. cbv iota.
  now rewrite pad_sub_lists_all.
Qed.

(** A list that starts with a record is returned as it is. *)
Lemma form_record_first (r : RedditErrorItem) (l : list value) :
  APIException._form_exception_list (VList (VItem r :: l)) []
  = Ok (VList (VItem r :: l)).
Proof. reflexivity. Qed.

(** C6, at the list [[RedditErrorItem("A", "B", "C"), ["a", "b"]]]: the
    list starts with a record, so no branch of [_form_exception_list] is
    taken and the sub-list of two strings is returned without the [None]
    the claim appends; with the same two elements in the other order the
    sub-list is padded. *)
Theorem form_exception_list_record_first :
  APIException._form_exception_list
    (VList [VItem (record 0 "A" "B" (Some "C")); VList [VStr "a"; VStr "b"]]) []
  = Ok (VList [VItem (record 0 "A" "B" (Some "C")); VList [VStr "a"; VStr "b"]])
  /\ APIException._form_exception_list
       (VList [VList [VStr "a"; VStr "b"]; VItem (record 0 "A" "B" (Some "C"))]) []
     = Ok (VList [VList [VStr "a"; VStr "b"; VNone];
                  VItem (record 0 "A" "B" (Some "C"))]).
Proof. split; reflexivity. Qed.

(** ** APIException.__init__ *)

Lemma parse_exception_list_unbound :
  APIException.class_binds "parse_exception_list" = false.
Proof. reflexivity. Qed.

(** Without a binding for [parse_exception_list] the constructor raises, and
    the state is the one it started from. *)
Lemma init_unbound_run (items0 : value) (optional_args : list value) (st : state) :
  APIException.__init__ None items0 optional_args st
  = (Raise match items0 with VList [] => IndexError | _ => AttributeError end, st).
Proof.
  unfold APIException.__init__.
  destruct items0 as [| z | s | [|x l] | r]; try reflexivity.
Qed.

(** C2, at the empty list: the constructor raises [IndexError] at
    [items[0]], before the lookup of [parse_exception_list]; it does not
    raise [AttributeError]. *)
Lemma init_empty_list_raises_index_error :
  fst (APIException.new (VList []) [] initial_state) = Raise IndexError
  /\ fst (APIException.new (VList []) [] initial_state) <> Raise AttributeError.
Proof. split; [reflexivity | discriminate]. Qed.

(** C2, amended: on every input the constructor of [APIException] and of
    [RedditAPIException] raises and leaves the instance as it was, so no
    [items] is ever set: [IndexError] on the empty list, and on every other
    input [AttributeError], no class of the hierarchy binding the name
    [parse_exception_list]. *)
Theorem init_always_raises (items0 : value) (optional_args : list value)
    (st : state) :
  APIException.new items0 optional_args st
  = (Raise match items0 with VList [] => IndexError | _ => AttributeError end, st)
  /\ APIException.class_binds "parse_exception_list" = false
  /\ APIException.class_binds "_parse_exception_list" = true
  /\ APIException.class_binds "_form_exception_list" = true.
Proof.
  split; [apply init_unbound_run | repeat split].
Qed.



(** * Further properties *)

(** ** _form_exception_list: errors, padding, repetition *)

Lemma padded_idempotent (x : value) : padded (padded x) = padded x.
Proof.
  destruct x as [| | |s|]; try reflexivity. simpl.
  destruct (length s =? 2)%nat eqn:Hs; simpl; [|now rewrite Hs].
  apply Nat.eqb_eq in Hs. rewrite length_app, Hs. reflexivity.
Qed.

Lemma padded_is_list (x : value) :
  isinstance_list (padded x) = isinstance_list x.
Proof.
  destruct x as [| | |s|]; try reflexivity. simpl.
  now destruct (length s =? 2)%nat.
Qed.

Lemma padded_is_str (x : value) :
  isinstance_str (padded x) = isinstance_str x.
Proof.
  destruct x as [| | |s|]; try reflexivity. simpl.
  now destruct (length s =? 2)%nat.
Qed.

(** What [_form_exception_list] answers, shape by shape. *)
Lemma form_run (items : value) (optional_args : list value) :
  APIException._form_exception_list items optional_args =
    match items with
    | VStr _ => Ok (VList [padded (VList (items :: optional_args))])
    | VItem _ => Ok (VList [items])
    | VList [] => Raise IndexError
    | VList (x :: l) =>
        if isinstance_str x then
          Ok (if (length (x :: l) =? 3)%nat then VList [items]
              else VList [VList ((x :: l) ++ [VNone])])
        else if isinstance_list x then Ok (VList (map padded (x :: l)))
        else Ok items
    | _ => Ok items
    end.
Proof.
  destruct items as [| z | s | [|x l] | r]; try reflexivity.
  - unfold APIException._form_exception_list.
    simpl isinstance_str. cbv iota. simpl isinstance_RedditErrorItem. cbv iota.
    simpl py_getitem. cbv iota. simpl isinstance_str. simpl isinstance_list.
    cbv iota. now rewrite pad_sub_lists_all.
  - unfold APIException._form_exception_list.
    simpl isinstance_str. cbv iota. simpl isinstance_RedditErrorItem. cbv iota.
    simpl py_getitem. cbv iota.
    destruct (isinstance_str x); [reflexivity|].
    destruct (isinstance_list x); [|reflexivity].
    now rewrite pad_sub_lists_all.
Qed.

(** X1: [_form_exception_list] raises on one input only, the empty list,
    where [items[0]] is an [IndexError]; on every other value it returns,
    whatever the extra arguments. *)
Theorem form_exception_list_raises (items : value) (optional_args : list value)
    (e : exn) :
  APIException._form_exception_list items optional_args = Raise e
  <-> items = VList [] /\ e = IndexError.
Proof.
  rewrite form_run. split.
  - destruct items as [| z | s | [|x l] | r]; try discriminate.
    + now intros [= <-].
    + destruct (isinstance_str x); [discriminate|].
      destruct (isinstance_list x); discriminate.
  - now intros [-> ->].
Qed.

(** X2: on a list that starts with a list, [_form_exception_list] returns a
    list of the same length in which every sub-list of length two has [None]
    appended and every other element (records, triples, longer or shorter
    lists) is the one of the argument at the same place. *)
Theorem form_exception_list_pads (s l : list value) (optional_args : list value) :
  exists out,
    APIException._form_exception_list (VList (VList s :: l)) optional_args
    = Ok (VList out)
    /\ length out = S (length l)
    /\ (forall i x, (VList s :: l) !! i = Some x ->
          out !! i = Some match x with
                          | VList t =>
                              if (length t =? 2)%nat then VList (t ++ [VNone]) else x
                          | _ => x
                          end).
Proof.
  exists (map padded (VList s :: l)). rewrite form_run.
  simpl isinstance_str. simpl isinstance_list. cbv iota.
  split; [reflexivity|]. split; [now rewrite length_map|].
  intros i x Hx. rewrite list_lookup_fmap, Hx. reflexivity.
Qed.

(** X3: what [_form_exception_list] returns is a fixed point of it: applied
    again, without extra arguments, it returns the same list.  The one
    exception is a flat list of a single string, which gains a [None] each
    time. *)
Theorem form_exception_list_idempotent (items v : value)
    (optional_args : list value) :
  APIException._form_exception_list items optional_args = Ok v ->
  (forall x, items <> VList [VStr x]) ->
  APIException._form_exception_list v [] = Ok v.
Proof.
  rewrite form_run. intros Hv Hone.
  destruct items as [| z | s | [|x l] | r]; try discriminate;
    try (injection Hv as <-; reflexivity).
  - destruct optional_args as [|a [|b rest]]; injection Hv as <-; reflexivity.
  - destruct (isinstance_str x) eqn:Hx.
    + destruct x as [| |x| |]; try discriminate.
      destruct (length (VStr x :: l) =? 3)%nat eqn:Hlen; injection Hv as <-;
        rewrite form_run; simpl isinstance_str; simpl isinstance_list;
        cbv iota; simpl map.
      * destruct l as [|a [|b [|c rest]]]; try discriminate. reflexivity.
      * destruct l as [|a [|b rest]]; [now destruct (Hone x) | reflexivity..].
    + destruct (isinstance_list x) eqn:Hx'; injection Hv as <-.
      * rewrite form_run. simpl map.
        rewrite padded_is_str, padded_is_list, Hx, Hx'. simpl map.
        rewrite padded_idempotent. do 3 f_equal.
        rewrite map_map. apply map_ext. intros a. apply padded_idempotent.
      * rewrite form_run. now rewrite Hx, Hx'.
Qed.

Lemma form_exception_list_idempotent_witness :
  APIException._form_exception_list
    (VList [VList [VStr "a"; VStr "b"; VNone]]) []
  = Ok (VList [VList [VStr "a"; VStr "b"; VNone]]).
Proof.
  apply (form_exception_list_idempotent (VStr "a")
           (VList [VList [VStr "a"; VStr "b"; VNone]]) [VStr "b"]).
  - reflexivity.
  - discriminate.
Defined.

(** The flat list of one string is the exception. *)
Example form_exception_list_single_string_grows :
  APIException._form_exception_list (VList [VStr "a"]) []
  = Ok (VList [VList [VStr "a"; VNone]])
  /\ APIException._form_exception_list (VList [VList [VStr "a"; VNone]]) []
     = Ok (VList [VList [VStr "a"; VNone; VNone]]).
Proof. split; reflexivity. Qed.

(** ** _parse_exception_list: which inputs it accepts *)

Lemma to_item_convertible (x : value) (st : state) :
  convertible x = true ->
  exists y st', APIException.to_item x st = (Ok y, st').
Proof.
  destruct x as [| z | s | l | r]; try discriminate; intros Hx.
  - destruct s as [|c0 [|c1 [|c2 s]]]; try discriminate. now eexists _, _.
  - destruct l as [|t [|m [|f l]]]; try discriminate. now eexists _, _.
  - now eexists _, _.
Qed.

Lemma to_item_not_convertible (x : value) (st : state) :
  convertible x = false ->
  APIException.to_item x st
  = (Raise match x with VList _ | VStr _ => IndexError | _ => TypeError end, st).
Proof.
  destruct x as [| z | s | l | r]; try discriminate; intros Hx; try reflexivity.
  - destruct s as [|c0 [|c1 [|c2 s]]]; try discriminate; reflexivity.
  - destruct l as [|t [|m [|f l]]]; try discriminate; reflexivity.
Qed.

Lemma to_items_first_error (l : list value) (st : state) :
  match first_error l with
  | None => exists ys st', mapM APIException.to_item l st = (Ok ys, st')
  | Some e => exists st', mapM APIException.to_item l st = (Raise e, st')
  end.
Proof.
  revert st. induction l as [|x l IH]; intros st; cbn [first_error].
  - now exists [], st.
  - rewrite mapM_cons_run. destruct (convertible x) eqn:Hx.
    + destruct (to_item_convertible x st Hx) as (y & st1 & ->).
      specialize (IH st1). destruct (first_error l) as [e|].
      * destruct IH as (st' & ->). eauto.
      * destruct IH as (ys & st' & ->). eauto.
    + rewrite (to_item_not_convertible x st Hx). eauto.
Qed.

Lemma to_items_are_items (l ys : list value) (st st' : state) :
  mapM APIException.to_item l st = (Ok ys, st') ->
  Forall (fun y => isinstance_RedditErrorItem y = true) ys /\ length ys = length l.
Proof.
  intros Hys.
  apply (mapM_Ok _ (fun x y => converts x y /\ isinstance_RedditErrorItem y = true)
           same_instance same_instance_refl same_instance_trans to_item_Ok)
    in Hys as [HR _].
  split; [|symmetry; eapply Forall2_length; eassumption].
  clear -HR. induction HR as [|x y l ys [_ Hy] _ IH]; now constructor.
Qed.

(** X4: [_parse_exception_list] returns on a list exactly when each element
    is a record or has the indices 0, 1 and 2 (a list or a string of length
    three or more), and then with as many records as elements.  Otherwise it
    raises what the first other element raises: [IndexError] for a shorter
    list or string, [TypeError] for [None] or an [int]. *)
Theorem parse_exception_list_outcome (l : list value) (st : state) :
  match first_error l with
  | None =>
      exists ys st',
        APIException._parse_exception_list (VList l) st = (Ok (VList ys), st')
        /\ length ys = length l
  | Some e =>
      exists st', APIException._parse_exception_list (VList l) st = (Raise e, st')
  end.
Proof.
  pose proof (to_items_first_error l st) as H.
  unfold APIException._parse_exception_list. rewrite bind_run. simpl.
  rewrite bind_run.
  destruct (first_error l) as [e|].
  - destruct H as (st' & ->). eauto.
  - destruct H as (ys & st1 & Hys). rewrite Hys.
    destruct (to_items_are_items _ _ _ _ Hys) as [Hitems Hlen].
    destruct (mark_all ys st1 Hitems) as (us & st2 & Hrun & _).
    rewrite bind_run, Hrun. eauto.
Qed.

Lemma strings_first_error (ss : list string) :
  forallb (fun s => (3 <=? String.length s)%nat) ss = true ->
  first_error (map VStr ss) = None.
Proof.
  induction ss as [|s ss IH]; [reflexivity|]. simpl.
  intros [Hs Hss]%andb_true_iff. rewrite Hs. auto.
Qed.

Lemma converts_string (s : string) (y : value) :
  converts (VStr s) y -> spelled s y.
Proof.
  intros (i & e0 & e1 & e2 & H0 & H1 & H2 & ->).
  destruct s as [|c0 [|c1 [|c2 rest]]]; try discriminate.
  injection H0 as <-. injection H1 as <-. injection H2 as <-.
  now exists i, c0, c1, c2, rest.
Qed.

(** X5: a flat list of strings handed to [_parse_exception_list] as it is
    gives one record for each string, not one record for the list: every
    string of three characters or more is indexed like a triple, its first
    character the kind, the second the message, the third the field, and
    the rest is dropped. *)
Theorem parse_exception_list_string_element (ss : list string) (st : state) :
  forallb (fun s => (3 <=? String.length s)%nat) ss = true ->
  exists ys st',
    APIException._parse_exception_list (VList (map VStr ss)) st
    = (Ok (VList ys), st')
    /\ Forall2 spelled ss ys.
Proof.
  intros Hss. pose proof (to_items_first_error (map VStr ss) st) as H.
  rewrite (strings_first_error ss Hss) in H. destruct H as (ys & st1 & Hys).
  destruct (to_items_are_items _ _ _ _ Hys) as [Hitems _].
  destruct (mark_all ys st1 Hitems) as (us & st2 & Hmark & _).
  assert (Hrun : APIException._parse_exception_list (VList (map VStr ss)) st
                 = (Ok (VList ys), st2)).
  { unfold APIException._parse_exception_list. rewrite bind_run. simpl.
    now rewrite bind_run, Hys, bind_run, Hmark. }
  exists ys, st2. split; [assumption|].
  destruct (parse_Ok _ _ _ _ Hrun) as (l & ys' & Hl & Hv & HR & _).
  injection Hl as <-. injection Hv as <-.
  clear -HR. remember (map VStr ss) as l eqn:El. revert ss El.
  induction HR as [|x y l ys Hxy _ IH]; intros [|s ss] El; try discriminate.
  - constructor.
  - injection El as -> ->. constructor; [now apply converts_string | now apply IH].
Qed.

Lemma parse_exception_list_string_element_witness :
  exists ys st',
    APIException._parse_exception_list
      (VList (map VStr ["RATE_LIMIT"; "too many requests"; "body"])) initial_state
    = (Ok (VList ys), st')
    /\ Forall2 spelled ["RATE_LIMIT"; "too many requests"; "body"] ys.
Proof.
  apply (parse_exception_list_string_element
           ["RATE_LIMIT"; "too many requests"; "body"] initial_state).
  reflexivity.
Defined.

(** The three strings of one error become three records of characters. *)
Example parse_exception_list_flat_strings :
  fst (APIException._parse_exception_list
         (VList [VStr "RATE_LIMIT"; VStr "too many requests"; VStr "body"])
         initial_state)
  = Ok (VList [VItem (record 0 "R" "A" (Some "T"));
               VItem (record 1 "t" "o" (Some "o"));
               VItem (record 2 "b" "o" (Some "d"))]).
Proof. reflexivity. Qed.

(** ** _parse_exception_list: the flags when it fails, and when it runs again *)

Lemma mapM_state {A B : Type} (f : A -> M B) (T : state -> state -> Prop) :
  (forall st, T st st) ->
  (forall s1 s2 s3, T s1 s2 -> T s2 s3 -> T s1 s3) ->
  (forall x o st st', f x st = (o, st') -> T st st') ->
  forall l o st st', mapM f l st = (o, st') -> T st st'.
Proof.
  intros Trefl Ttrans Hf l.
  induction l as [|x l IH]; intros o st st'.
  - rewrite mapM_nil_run. intros [= <- <-]. apply Trefl.
  - rewrite mapM_cons_run.
    destruct (f x st) as [[y|e] st1] eqn:Hx.
    + destruct (mapM f l st1) as [[zs|e] st2] eqn:Hl;
        intros [= <- <-]; eauto.
    + intros [= <- <-]. eauto.
Qed.

Lemma to_item_marks_nothing (x : value) (o : outcome value) (st st' : state) :
  APIException.to_item x st = (o, st') ->
  marked st' ⊆ marked st /\ same_instance st st'.
Proof.
  destruct (convertible x) eqn:Hx.
  - destruct x as [| z | s | l | r]; try discriminate.
    + destruct s as [|c0 [|c1 [|c2 s]]]; try discriminate.
      intros [= <- <-]. simpl.
      split; [apply subseteq_difference_l; reflexivity | now split].
    + destruct l as [|t [|m [|f l]]]; try discriminate.
      intros [= <- <-]. simpl.
      split; [apply subseteq_difference_l; reflexivity | now split].
    + intros [= <- <-]. split; [set_solver | now split].
  - rewrite (to_item_not_convertible x st Hx). intros [= <- <-].
    split; [set_solver | now split].
Qed.

(** X6: when [_parse_exception_list] raises, no flag has been set: the
    marked records of the final store are among those of the initial one,
    so a record of the argument that was unmarked still is, and the instance
    and its warnings are untouched. *)
Theorem parse_exception_list_failure_marks_nothing (exceptions : value)
    (e : exn) (st st' : state) :
  APIException._parse_exception_list exceptions st = (Raise e, st') ->
  marked st' ⊆ marked st
  /\ (forall r, item_id r ∉ marked st -> item_id r ∉ marked st')
  /\ same_instance st st'.
Proof.
  intros Hrun.
  assert (H : marked st' ⊆ marked st /\ same_instance st st').
  { revert Hrun.
    unfold APIException._parse_exception_list. rewrite bind_run. unfold lift.
    destruct (py_iter exceptions) as [l|e0].
    - rewrite bind_run.
      destruct (mapM APIException.to_item l st) as [[ys|e1] st1] eqn:Hys.
      + destruct (to_items_are_items _ _ _ _ Hys) as [Hitems _].
        destruct (mark_all ys st1 Hitems) as (us & st2 & Hmark & _).
        rewrite bind_run, Hmark. discriminate.
      + intros [= <- <-].
        apply (mapM_state _ (fun s s' => marked s' ⊆ marked s /\ same_instance s s'))
          in Hys; [assumption | | | apply to_item_marks_nothing].
        * intros s. split; [set_solver | apply same_instance_refl].
        * intros s1 s2 s3 [H1 H2] [H3 H4].
          split; [set_solver | eapply same_instance_trans; eassumption].
    - intros [= <- <-]. split; [set_solver | apply same_instance_refl]. }
  destruct H as [Hsub Hsame]. repeat split; try apply Hsame; [assumption|].
  intros r Hr Hr'. apply Hr. now apply Hsub.
Qed.

Lemma parse_exception_list_failure_marks_nothing_witness :
  let exceptions :=
    VList [VItem (record 5 "A" "B" (Some "C")); VList [VStr "a"; VStr "b"]] in
  let st' := snd (APIException._parse_exception_list exceptions initial_state) in
  marked st' ⊆ marked initial_state
  /\ (forall r, item_id r ∉ marked initial_state -> item_id r ∉ marked st')
  /\ same_instance initial_state st'.
Proof.
  intros exceptions st'.
  apply (parse_exception_list_failure_marks_nothing exceptions IndexError
           initial_state st').
  reflexivity.
Defined.

Lemma to_items_of_items (ys : list value) (st : state) :
  Forall (fun y => isinstance_RedditErrorItem y = true) ys ->
  mapM APIException.to_item ys st = (Ok ys, st).
Proof.
  induction 1 as [|y ys Hy _ IH]; [reflexivity|].
  rewrite mapM_cons_run. destruct y; try discriminate.
  rewrite to_item_item, IH. reflexivity.
Qed.

Lemma with_marked_same (st : state) : with_marked (marked st) st = st.
Proof. now destruct st. Qed.

Lemma mark_all_marked (ys : list value) (st : state) :
  Forall (fun y => exists r, y = VItem r /\ item_id r ∈ marked st) ys ->
  exists us, mapM APIException.set_called_from ys st = (Ok us, st).
Proof.
  induction 1 as [|y ys (r & -> & Hr) _ [us IH]]; [now exists []|].
  exists (tt :: us). rewrite mapM_cons_run. simpl. unfold modify.
  fold (with_marked ({[item_id r]} ∪ marked st) st).
  replace ({[item_id r]} ∪ marked st) with (marked st)
    by (symmetry; apply subseteq_union_1_L, singleton_subseteq_l, Hr).
  now rewrite with_marked_same, IH.
Qed.

(** X7: what [_parse_exception_list] returns passes through it unchanged:
    run again on its own result, in the store it left, it returns the same
    list of the same records, builds no record and changes no flag. *)
Theorem parse_exception_list_idempotent (exceptions v : value) (st st' : state) :
  APIException._parse_exception_list exceptions st = (Ok v, st') ->
  APIException._parse_exception_list v st' = (Ok v, st').
Proof.
  intros Hrun.
  destruct (parse_Ok _ _ _ _ Hrun) as (l & ys & _ & -> & HR & Hin & _).
  assert (Hitems : Forall (fun y => exists r, y = VItem r /\ item_id r ∈ marked st') ys).
  { apply Forall_forall. intros y Hy.
    destruct (converts_items _ _ _ HR Hy) as [r ->]. eauto. }
  unfold APIException._parse_exception_list. rewrite bind_run. simpl.
  rewrite bind_run, to_items_of_items.
  - destruct (mark_all_marked ys st' Hitems) as [us Hus].
    now rewrite bind_run, Hus.
  - eapply Forall_impl; [exact Hitems|]. now intros y (r & -> & _).
Qed.

Lemma parse_exception_list_idempotent_witness :
  let exceptions :=
    VList [VItem (record 5 "A" "B" (Some "C")); VList [VStr "a"; VStr "b"; VNone]] in
  let v := VList [VItem (record 5 "A" "B" (Some "C"));
                  VItem (record 0 "a" "b" (Some ""))] in
  let st' := snd (APIException._parse_exception_list exceptions initial_state) in
  APIException._parse_exception_list v st' = (Ok v, st').
Proof.
  intros exceptions v st'.
  apply (parse_exception_list_idempotent exceptions v initial_state st').
  reflexivity.
Defined.

(** ** After the normaliser: how the records print *)

(** X8: in the store [_parse_exception_list] leaves, the repr of each record
    it returned is the record's [error_message], and the repr of the list
    returned is the list of these messages, in brackets. *)
Theorem parsed_records_print_message (exceptions v : value) (st st' : state) :
  APIException._parse_exception_list exceptions st = (Ok v, st') ->
  exists ys,
    v = VList ys
    /\ Forall (fun y => exists r,
                 y = VItem r /\ __repr__ st' r = error_message st' r) ys
    /\ py_repr (marked st') v
       = "[" +:+ join ", " (map (py_str (marked st')) ys) +:+ "]".
Proof.
  intros Hrun.
  destruct (parse_Ok _ _ _ _ Hrun) as (l & ys & _ & -> & HR & Hin & _).
  assert (Hitems : Forall (fun y => exists r,
            y = VItem r /\ __repr__ st' r = error_message st' r) ys).
  { apply Forall_forall. intros y Hy.
    destruct (converts_items _ _ _ HR Hy) as [r ->].
    exists r. split; [reflexivity|].
    unfold __repr__, __repr___body.
    rewrite (bool_decide_eq_true_2 _ (Hin r Hy)). reflexivity. }
  exists ys. repeat split; [assumption|].
  simpl. do 3 f_equal. clear -Hitems.
  induction Hitems as [|y ys (r & -> & Hr) _ IH]; [reflexivity|].
  simpl. f_equal; [exact Hr | exact IH].
Qed.

Lemma parsed_records_print_message_witness :
  let exceptions := VList [VList [VStr "a"; VStr "b"; VStr "c"]] in
  let v := VList [VItem (record 0 "a" "b" (Some "c"))] in
  let st' := snd (APIException._parse_exception_list exceptions initial_state) in
  exists ys,
    v = VList ys
    /\ Forall (fun y => exists r,
                 y = VItem r /\ __repr__ st' r = error_message st' r) ys
    /\ py_repr (marked st') v
       = "[" +:+ join ", " (map (py_str (marked st')) ys) +:+ "]".
Proof.
  intros exceptions v st'.
  apply (parsed_records_print_message exceptions v initial_state st').
  reflexivity.
Defined.

(** ** The two steps together *)

Lemma entry_padded_raw (x : value) : is_entry x = true -> is_raw (padded x) = true.
Proof.
  destruct x as [| | |l|]; try discriminate; [|reflexivity].
  now destruct l as [|t [|m [|f [|? ?]]]].
Qed.

Lemma entry_normalized (x y : value) :
  is_entry x = true -> normalizes (padded x) y -> normalized_entry x y.
Proof.
  destruct x as [| | |l|r]; try discriminate; [|now intros _ ->].
  destruct l as [|t [|m [|f [|? ?]]]]; try discriminate; intros _; simpl.
  - intros (i & fld & -> & -> & _). now exists i.
  - intros (i & fld & -> & -> & _). now exists i.
Qed.

Lemma entries_padded_raw (L : list value) :
  forallb is_entry L = true -> forallb is_raw (map padded L) = true.
Proof.
  induction L as [|x L IH]; [reflexivity|]. simpl.
  intros [Hx HL]%andb_true_iff. now rewrite (entry_padded_raw x Hx), IH.
Qed.

Lemma entries_normalized (L ys : list value) :
  forallb is_entry L = true ->
  Forall2 converts (map padded L) ys -> Forall2 normalized_entry L ys.
Proof.
  revert ys. induction L as [|x L IH]; intros ys HL HR.
  - inversion HR. constructor.
  - simpl in HL. apply andb_true_iff in HL as [Hx HL].
    change (map padded (x :: L)) with (padded x :: map padded L) in HR.
    inversion HR as [|? y ? ys' Hxy HR']; subst.
    constructor; [|now apply IH].
    apply entry_normalized; [assumption|].
    apply converts_raw; [now apply entry_padded_raw | assumption].
Qed.

(** X9: each way of giving one error normalises to one record.  A string
    with the message as extra argument, or a flat list of a string and a
    message, gives the record of the two with the empty string as field; with
    a third value, that value is the field, or the empty string if it is
    false; a record alone is returned in a list, marked.  A string without
    extra argument is an [IndexError]. *)
Theorem form_then_parse_single (st : state) :
  (forall kind m,
      fst (form_then_parse (VStr kind) [m] st)
      = Ok (VList [VItem (Build_RedditErrorItem (next_id st) (VStr kind) m (VStr ""))])
      /\ fst (form_then_parse (VList [VStr kind; m]) [] st)
         = Ok (VList [VItem (Build_RedditErrorItem (next_id st) (VStr kind) m
                               (VStr ""))]))
  /\ (forall kind m f,
        fst (form_then_parse (VStr kind) [m; f] st)
        = Ok (VList [VItem (Build_RedditErrorItem (next_id st) (VStr kind) m
                              (if py_bool f then f else VStr ""))])
        /\ fst (form_then_parse (VList [VStr kind; m; f]) [] st)
           = Ok (VList [VItem (Build_RedditErrorItem (next_id st) (VStr kind) m
                                 (if py_bool f then f else VStr ""))]))
  /\ (forall r,
        fst (form_then_parse (VItem r) [] st) = Ok (VList [VItem r])
        /\ item_id r ∈ marked (snd (form_then_parse (VItem r) [] st)))
  /\ (forall kind, form_then_parse (VStr kind) [] st = (Raise IndexError, st)).
Proof.
  repeat split; try reflexivity.
  simpl. apply elem_of_union_l, elem_of_singleton. reflexivity.
Qed.

(** X10: a list of errors that starts with a list and holds records, pairs
    and triples normalises to the list of their records, in order: a record
    stands for itself, a pair [t, m] for the record of [t], [m] and the
    empty string, a triple [t, m, f] for the record of [t], [m] and [f], or
    the empty string if [f] is false. *)
Theorem form_then_parse_entries (s l optional_args : list value) (st : state) :
  forallb is_entry (VList s :: l) = true ->
  exists ys st',
    form_then_parse (VList (VList s :: l)) optional_args st = (Ok (VList ys), st')
    /\ Forall2 normalized_entry (VList s :: l) ys.
Proof.
  intros Hl. unfold form_then_parse. rewrite bind_run, form_run.
  simpl isinstance_str. simpl isinstance_list. cbv iota. unfold lift.
  destruct (parse_raw_runs _ st (entries_padded_raw _ Hl)) as (v & st' & Hrun).
  destruct (parse_Ok _ _ _ _ Hrun) as (l0 & ys & Hl0 & -> & HR & _).
  injection Hl0 as <-.
  exists ys, st'. split; [assumption | now apply entries_normalized].
Qed.

Lemma form_then_parse_entries_witness :
  exists ys st',
    form_then_parse
      (VList [VList [VStr "a"; VStr "b"]; VItem (record 5 "A" "B" (Some "C"));
              VList [VStr "c"; VStr "d"; VNone]]) [] initial_state
    = (Ok (VList ys), st')
    /\ Forall2 normalized_entry
         [VList [VStr "a"; VStr "b"]; VItem (record 5 "A" "B" (Some "C"));
          VList [VStr "c"; VStr "d"; VNone]] ys.
Proof.
  apply (form_then_parse_entries [VStr "a"; VStr "b"]
           [VItem (record 5 "A" "B" (Some "C")); VList [VStr "c"; VStr "d"; VNone]]
           [] initial_state).
  reflexivity.
Defined.

(** ** Equality as a relation *)

Lemma py_eq_erase (v : value) :
  forall w, py_eq v w = true <-> erase v = erase w.
Proof.
  induction v as [| z | s | l IH | i e m f IHe IHm IHf] using value_ind';
    intros w.
  - destruct w as [| | | |[]]; simpl; split; congruence.
  - destruct w as [|z'| | |[]]; simpl; try (split; congruence).
    rewrite Z.eqb_eq. split; congruence.
  - destruct w as [| |s'| |[]]; simpl; try (split; congruence).
    rewrite String.eqb_eq. split; congruence.
  - destruct w as [| | |l'|[]]; simpl; try (split; congruence).
    assert (H : (fix all2 (a b : list value) {struct a} : bool :=
                   match a, b with
                   | [], [] => true
                   | x :: a', y :: b' => py_eq x y && all2 a' b'
                   | _, _ => false
                   end) l l' = true <-> map erase l = map erase l').
    { revert l'. induction IH as [|x l Hx _ IHl]; intros [|y l']; simpl;
        try (split; congruence).
      rewrite andb_true_iff, Hx, IHl. split; [intros [-> ->] | intros [= -> ->]]; auto. }
    rewrite H. split; congruence.
  - destruct w as [| | | |[j e' m' f']]; simpl; try (split; congruence).
    unfold error_type, message, field.
    rewrite !andb_true_iff, IHe, IHm, IHf.
    split; [intros [[-> ->] ->] | intros [= -> -> ->]]; auto.
Qed.

(** X11: [==] as [RedditErrorItem.__eq__] defines it is an equivalence on
    the values that hold records: reflexive, symmetric and transitive.  It
    holds between two values exactly when they are the same up to the
    identity of the records in them, so a record and a copy of it are equal. *)
Theorem py_eq_equivalence :
  (forall v, py_eq v v = true)
  /\ (forall v w, py_eq v w = py_eq w v)
  /\ (forall u v w, py_eq u v = true -> py_eq v w = true -> py_eq u w = true)
  /\ (forall v w, py_eq v w = true <-> erase v = erase w)
  /\ (forall i j e m f,
        py_eq (VItem (Build_RedditErrorItem i e m f))
              (VItem (Build_RedditErrorItem j e m f)) = true).
Proof.
  split; [exact py_eq_refl|]. split; [|split; [|split; [exact py_eq_erase|]]].
  - intros v w. destruct (py_eq v w) eqn:H1, (py_eq w v) eqn:H2; try reflexivity.
    + apply py_eq_erase in H1. symmetry in H1. apply py_eq_erase in H1. congruence.
    + apply py_eq_erase in H2. symmetry in H2. apply py_eq_erase in H2. congruence.
  - intros u v w H1%py_eq_erase H2%py_eq_erase. apply py_eq_erase. congruence.
  - intros i j e m f. now apply py_eq_erase.
Qed.

(** ** The deprecated accessors when they fail *)

(** X12: a deprecated accessor issues its warning first, so exactly one
    warning is recorded whatever comes after: when [items] was never set the
    access then raises [AttributeError], when [items] is an empty list
    [IndexError], and when its first element is not a record
    [AttributeError]. *)
Theorem deprecated_accessor_always_warns (a : APIException.attrname) (st : state) :
  snd (APIException._get_old_attr a st) = warned (deprecation a) st
  /\ (items (exc st) = None ->
      fst (APIException._get_old_attr a st) = Raise AttributeError)
  /\ (items (exc st) = Some (VList []) ->
      fst (APIException._get_old_attr a st) = Raise IndexError)
  /\ (forall x rest,
        items (exc st) = Some (VList (x :: rest)) ->
        isinstance_RedditErrorItem x = false ->
        fst (APIException._get_old_attr a st) = Raise AttributeError).
Proof.
  rewrite get_old_attr_run. repeat split.
  - destruct (items (exc st)) as [its|]; [|reflexivity].
    now destruct (py_getitem its 0).
  - now intros ->.
  - now intros ->.
  - intros x rest -> Hx. now destruct x.
Qed.

(** ** The messages of the leaf exceptions *)

Lemma append_cancel_l (p x y : string) : p +:+ x = p +:+ y -> x = y.
Proof.
  induction p as [|c p IH]; [trivial|].
  rewrite !append_cons. intros [= H]. auto.
Qed.

Lemma length_append (a b : string) :
  String.length (a +:+ b) = String.length a + String.length b.
Proof.
  induction a as [|c a IH]; [reflexivity|].
  rewrite append_cons. simpl. now rewrite IH.
Qed.

Lemma append_cancel_r (x y s : string) : x +:+ s = y +:+ s -> x = y.
Proof.
  revert y. induction x as [|c x IH]; intros [|d y] H.
  - reflexivity.
  - apply (f_equal String.length) in H.
    rewrite !length_append in H. simpl in H. lia.
  - apply (f_equal String.length) in H.
    rewrite !length_append in H. simpl in H. lia.
  - rewrite !append_cons in H. injection H as -> H. f_equal. auto.
Qed.

(** Two texts without a space that are followed by a space are the same
    text, and so is what follows. *)
Lemma split_at_space (a a' r r' : string) :
  contains_char " " a = false -> contains_char " " a' = false ->
  a +:+ String " " r = a' +:+ String " " r' -> a = a' /\ r = r'.
Proof.
  revert a'. induction a as [|c a IH]; intros [|d a'] Ha Ha' H.
  - injection H as ->. now split.
  - rewrite append_cons in H. injection H as <- _. discriminate.
  - rewrite append_cons in H. injection H as -> _. discriminate.
  - rewrite !append_cons in H. injection H as -> H.
    simpl in Ha, Ha'. apply orb_false_iff in Ha as [_ Ha].
    apply orb_false_iff in Ha' as [_ Ha'].
    destruct (IH a' Ha Ha' H) as [-> ->]. now split.
Qed.

Lemma str_int_no_space (z : Z) : contains_char " " (str_int z) = false.
Proof.
  assert (H : forall d, contains_char " " (NilEmpty.string_of_uint d) = false).
  { induction d; simpl; trivial. }
  assert (H' : forall d, contains_char " " (NilZero.string_of_uint d) = false).
  { intros d. destruct d; try apply H. reflexivity. }
  unfold str_int. destruct (Z.to_int z); simpl; apply H'.
Qed.

Lemma str_int_injective (a b : Z) : str_int a = str_int b -> a = b.
Proof.
  intros H. pose proof (str_int_reads_back a) as Ha.
  rewrite H, str_int_reads_back in Ha. congruence.
Qed.

(** X13: the message of [TooLargeMediaException] tells the two sizes apart:
    two exceptions with the same message were built from the same
    [maximum_size] and the same [actual]. *)
Theorem too_large_media_message_injective (m a m' a' : Z) :
  TooLargeMediaException.str (TooLargeMediaException.__init__ m a)
  = TooLargeMediaException.str (TooLargeMediaException.__init__ m' a') ->
  m = m' /\ a = a'.
Proof.
  simpl. intros H. apply append_cancel_l in H.
  change (" bytes, uploaded " +:+ str_int a +:+ " bytes)")
    with (String " " ("bytes, uploaded " +:+ str_int a +:+ " bytes)")) in H.
  change (" bytes, uploaded " +:+ str_int a' +:+ " bytes)")
    with (String " " ("bytes, uploaded " +:+ str_int a' +:+ " bytes)")) in H.
  apply split_at_space in H as [Hm H]; try apply str_int_no_space.
  apply append_cancel_l, append_cancel_r in H.
  split; now apply str_int_injective.
Qed.

Lemma too_large_media_message_injective_witness :
  1000%Z = 1000%Z /\ 2000%Z = 2000%Z.
Proof.
  apply (too_large_media_message_injective 1000 2000 1000 2000).
  reflexivity.
Defined.

(** X14: the message of [InvalidFlairTemplateID] names the template id and
    nothing else variable: two exceptions with the same argument list were
    built from the same id. *)
Theorem invalid_flair_template_id_injective (template_id template_id' : string) :
  InvalidFlairTemplateID.__init__ template_id
  = InvalidFlairTemplateID.__init__ template_id' ->
  template_id = template_id'.
Proof.
  unfold InvalidFlairTemplateID.__init__. intros [= H].
  now apply append_cancel_l, append_cancel_r in H.
Qed.

Lemma invalid_flair_template_id_injective_witness :
  "abc123" = "abc123".
Proof.
  apply (invalid_flair_template_id_injective "abc123" "abc123").
  reflexivity.
Defined.

(** ** A record built on its own *)

(** X15: a record built by [RedditErrorItem(...)] starts unmarked, whatever
    the store held: its repr is the constructor-style text, and the flags of
    the other records, the instance and the warnings are as before. *)
Theorem new_record_prints_constructor (e m f : value) (st : state) :
  exists r st',
    RedditErrorItem__init__ e m f st = (Ok (VItem r), st')
    /\ error_type r = e /\ message r = m /\ field r = f
    /\ (item_id r ∉ marked st')
    /\ __repr__ st' r
       = "RedditErrorItem(error_type=" +:+ py_repr (marked st') e
         +:+ ", message=" +:+ py_repr (marked st') m
         +:+ ", field=" +:+ py_repr (marked st') f +:+ ")"
    /\ (forall i, i <> item_id r -> (i ∈ marked st' <-> i ∈ marked st))
    /\ same_instance st st'.
Proof.
  eexists _, _. split; [reflexivity|]. simpl.
  assert (Hn : next_id st ∉ (marked st ∖ {[next_id st]})).
  { intros [_ Hd]%elem_of_difference. apply Hd. now apply elem_of_singleton. }
  repeat split; try assumption.
  - unfold __repr__, __repr___body. simpl.
    now rewrite (bool_decide_eq_false_2 _ Hn).
  - intros [Hi _]%elem_of_difference. exact Hi.
  - intros Hi. apply elem_of_difference. split; [exact Hi|].
    intros Hi'%elem_of_singleton. congruence.
Qed.
